(** * juggernaut.py: the Juggernaut client and its Redis roster

    A shallow embedding of [juggernaut.py]: the [Juggernaut] client
    ([publish], [subscribe_listen]) and the [Roster] / [RedisRoster]
    presence tracker, over a small model of the Python values that
    travel through them and of the Redis commands they issue. *)

From Stdlib Require Import Ascii String.
From stdpp Require Import gmap strings list pretty sorting.

Set Warnings "-register-all,-clear-no-such-hyp".

Open Scope string_scope.

(** ** Python values

    The objects [json.loads] hands to the roster, and the arguments of
    [publish].  Numbers are integers; floats are outside the model. *)

Inductive value : Type :=
| VNone
| VBool (b : bool)
| VInt (n : Z)
| VStr (s : string)
| VList (l : list value)
| VDict (d : list (string * value)).

Inductive exn : Type :=
| KeyError (k : string)
| AttributeError
| TypeError
| IndexError
| ValueError.

Inductive outcome (A : Type) : Type :=
| Return (a : A)
| Raise (e : exn).
Arguments Return {A} a.
Arguments Raise {A} e.

(** What the Python interpreter and the [json] module decide and this
    development leaves open: the text of a list or a dict, the order in
    which a [set] is iterated, and the JSON codec. *)
Class Runtime : Type := {
  repr_container : value → string;
  set_iteration : list string → list string;
  json_dumps : value → string;
  json_loads : string → option value
}.

(** [list(set(l))] has the members of [l], each once. *)
Definition set_semantics `{Runtime} : Prop :=
  ∀ l : list string, NoDup (set_iteration l) ∧ ∀ x, x ∈ set_iteration l ↔ x ∈ l.

Module Py.

(** Truth value of an object, as tested by [if meta:] and [if except_:]. *)
Definition truthy (v : value) : bool :=
  match v with
  | VNone => false
  | VBool b => b
  | VInt n => negb (n =? 0)%Z
  | VStr s => negb (String.eqb s EmptyString)
  | VList l => match l with [] => false | _ => true end
  | VDict d => match d with [] => false | _ => true end
  end.

(** [str(v)], which is also what ['%s' % v] inserts and what redis-py
    sends for a command argument. *)
Definition str `{Runtime} (v : value) : string :=
  match v with
  | VNone => "None"
  | VBool true => "True"
  | VBool false => "False"
  | VInt n => pretty n
  | VStr s => s
  | VList _ | VDict _ => repr_container v
  end.

(** [unicode(v)]: the text of [v] as a unicode string. *)
Definition unicode `{Runtime} (v : value) : string := str v.

(** A dict is kept as its list of items; the first item of a key is
    the binding. *)
Fixpoint lookup (k : string) (d : list (string * value)) : option value :=
  match d with
  | [] => None
  | (k', v) :: d' => if String.eqb k k' then Some v else lookup k d'
  end.

(** [d[k] = v] *)
Fixpoint setitem (k : string) (v : value) (d : list (string * value))
  : list (string * value) :=
  match d with
  | [] => [(k, v)]
  | (k', v') :: d' =>
      if String.eqb k k' then (k, v) :: d' else (k', v') :: setitem k v d'
  end.

(** [d.update(o)].  The items of [o] are stored last to first, so
    that the binding of a key of [o] is the one [d] ends up with even
    if the list [o] names the key again further on. *)
Definition update (d o : list (string * value)) : list (string * value) :=
  fold_right (fun kv acc => setitem kv.1 kv.2 acc) d o.

(** [v.get(k)]: only a dict has the method. *)
Definition get (v : value) (k : string) : outcome value :=
  match v with
  | VDict d => Return (default VNone (lookup k d))
  | _ => Raise AttributeError
  end.

(** [v[k]] with a string subscript. *)
Definition getitem (v : value) (k : string) : outcome value :=
  match v with
  | VDict d =>
      match lookup k d with
      | Some x => Return x
      | None => Raise (KeyError k)
      end
  | _ => Raise TypeError
  end.

(** [s.split(sep, 1)[1]]: what follows the first [sep] in [s]. *)
Fixpoint after_first (sep : Ascii.ascii) (s : string) : option string :=
  match s with
  | EmptyString => None
  | String c s' => if Ascii.eqb c sep then Some s' else after_first sep s'
  end.

Definition is_none (v : value) : bool :=
  match v with VNone => true | _ => false end.

End Py.

(** ** The world the program acts on *)

(** A call of one of the roster's overridable hooks. *)
Inductive hook_call : Type :=
| on_signed_in_call (user_id : value)
| on_signed_out_call (user_id : value).

(** The Redis server (its sets, and the messages published to it) and
    the record of hook calls made so far, oldest first. *)
Record world : Type := World {
  sets : gmap string (gset string);
  published : list (string * string);
  hooks : list hook_call
}.

Definition M (A : Type) : Type := world → outcome A * world.

Definition ret {A} (a : A) : M A := fun w => (Return a, w).

Definition bind {A B} (m : M A) (k : A → M B) : M B :=
  fun w =>
    match m w with
    | (Return a, w') => k a w'
    | (Raise e, w') => (Raise e, w')
    end.

Definition lift {A} (o : outcome A) : M A := fun w => (o, w).

Definition exec {A} (m : M A) (w : world) : world := (m w).2.

Notation "'let*' x ':=' c 'in' k" := (bind c (fun x => k))
  (at level 10, x name, c at level 100, k at level 200).
Notation "c1 ';;' c2" := (bind c1 (fun _ => c2))
  (at level 100, c2 at level 200, right associativity).

Module Redis.

Definition members (k : string) (m : gmap string (gset string)) : gset string :=
  default ∅ (m !! k).

(** SADD: the key comes into being with its first member. *)
Definition sadd (k v : string) : M unit := fun w =>
  (Return tt,
   World (<[k := {[v]} ∪ members k (sets w)]> (sets w)) (published w) (hooks w)).

(** SREM: a set that loses its last member is deleted. *)
Definition srem (k v : string) : M unit := fun w =>
  let s := members k (sets w) ∖ {[v]} in
  (Return tt,
   World (if decide (s = ∅) then delete k (sets w) else <[k := s]> (sets w))
         (published w) (hooks w)).

Definition scard (k : string) : M nat := fun w =>
  (Return (size (members k (sets w))), w).

Definition smembers (k : string) : M (gset string) := fun w =>
  (Return (members k (sets w)), w).

(** PUBLISH *)
Definition publish (channel message : string) : M unit := fun w =>
  (Return tt, World (sets w) (published w ++ [(channel, message)]) (hooks w)).

End Redis.

(** ** class Juggernaut *)

(** [self.redis] is the Redis server of the world; [key] is the channel
    a Juggernaut server reads its commands from. *)
Record Juggernaut : Type := { key : string }.

Definition default_juggernaut : Juggernaut := {| key := "juggernaut" |}.

(** The class attribute [events]. *)
Definition events : list string :=
  ["juggernaut:subscribe"; "juggernaut:unsubscribe"; "juggernaut:custom"].

(** The [channels] argument of [publish]: a string, or a collection of
    strings. *)
Inductive channels_arg : Type :=
| one_channel (name : string)
| many_channels (names : list string).

(** The dict [publish] serializes. *)
Definition envelope `{Runtime} (channels : channels_arg) (data except_ : value)
    (options : list (string * value)) : list (string * value) :=
  let channels :=
    match channels with
    | one_channel name => [name]
    | many_channels names => names
    end in
  let d := [("channels", VList (VStr <$> set_iteration channels)); ("data", data)] in
  let d := if Py.truthy except_ then Py.setitem "except" except_ d else d in
  Py.update d options.

Definition publish `{Runtime} (self : Juggernaut) (channels : channels_arg)
    (data except_ : value) (options : list (string * value)) : M unit :=
  let d := envelope channels data except_ options in
  let data := json_dumps (VDict d) in
  Redis.publish (key self) data.

(** A message as [pubsub.listen()] hands it over: [message['channel']]
    and [message['data']]. *)
Record message : Type := { channel : string; payload : string }.

(** [pubsub.subscribe(event)] for each of [self.events], starting from
    a connection that is subscribed to nothing. *)
Definition subscriptions (self : Juggernaut) : gset string :=
  fold_left (fun subs event => {[event]} ∪ subs) events ∅.

(** [pubsub.listen()]: of the messages the server sees, in the order it
    sees them, those on a subscribed channel. *)
Definition listen (subs : gset string) (feed : list message) : list message :=
  filter (fun m => channel m ∈ subs) feed.

(** The body of the loop of [subscribe_listen], up to its [yield]. *)
Definition decode `{Runtime} (m : message) : outcome (string * value) :=
  match Py.after_first ":"%char (channel m) with
  | None => Raise IndexError
  | Some event =>
      match json_loads (payload m) with
      | None => Raise ValueError
      | Some data => Return (event, data)
      end
  end.

(** A generator run over a finite feed: the pairs it yields, and the
    exception that ended it, if one did. *)
Fixpoint yields `{Runtime} (ms : list message) : list (string * value) * option exn :=
  match ms with
  | [] => ([], None)
  | m :: ms' =>
      match decode m with
      | Return y => let '(ys, e) := yields ms' in (y :: ys, e)
      | Raise e => ([], Some e)
      end
  end.

Definition subscribe_listen `{Runtime} (self : Juggernaut) (feed : list message)
  : list (string * value) * option exn :=
  yields (listen (subscriptions self) feed).

(** ** class Roster, class RedisRoster *)

Record RedisRoster : Type := {
  jug : Juggernaut;
  key_prefix : string;
  user_meta_key : string
}.

Definition default_roster : RedisRoster :=
  {| jug := default_juggernaut;
     key_prefix := "juggernaut-roster:";
     user_meta_key := "user_id" |}.

Definition and_then {A B} (o : outcome A) (k : A → outcome B) : outcome B :=
  match o with
  | Return a => k a
  | Raise e => Raise e
  end.

(** A function that falls off its end returns [None]. *)
Definition get_user_id `{Runtime} (self : RedisRoster) (data : value) : outcome value :=
  and_then (Py.get data "meta") (fun meta =>
    if Py.truthy meta then
      and_then (Py.get meta (user_meta_key self)) (fun v =>
        Return (VStr (Py.unicode v)))
    else Return VNone).

(** The hooks do nothing of their own; the world keeps the calls. *)
Definition on_signed_in (user_id : value) : M unit := fun w =>
  (Return tt, World (sets w) (published w) (hooks w ++ [on_signed_in_call user_id])).

Definition on_signed_out (user_id : value) : M unit := fun w =>
  (Return tt, World (sets w) (published w) (hooks w ++ [on_signed_out_call user_id])).

(** ['%sconnections:%s' % (self.key_prefix, user_id)] *)
Definition connections_key `{Runtime} (self : RedisRoster) (user_id : value) : string :=
  key_prefix self +:+ "connections:" +:+ Py.str user_id.

(** [self.key_prefix + 'online-users'] *)
Definition online_users_key (self : RedisRoster) : string :=
  key_prefix self +:+ "online-users".

Definition get_online_users (self : RedisRoster) : M (gset string) :=
  Redis.smembers (online_users_key self).

Definition is_user_online `{Runtime} (self : RedisRoster) (user_id : value) : M bool :=
  let key := connections_key self user_id in
  let* n := Redis.scard key in
  ret (bool_decide (0 < n)).

Definition on_subscribe `{Runtime} (self : RedisRoster) (user_id data : value) : M unit :=
  let key := connections_key self user_id in
  let* session_id := lift (Py.getitem data "session_id") in
  Redis.sadd key (Py.str session_id);;
  let* n := Redis.scard key in
  (if bool_decide (n = 0) then on_signed_in user_id else ret tt);;
  Redis.sadd (online_users_key self) (Py.str user_id).

Definition on_unsubscribe `{Runtime} (self : RedisRoster) (user_id data : value) : M unit :=
  let key := connections_key self user_id in
  let* session_id := lift (Py.getitem data "session_id") in
  Redis.srem key (Py.str session_id);;
  let* n := Redis.scard key in
  if bool_decide (n = 0) then
    on_signed_out user_id;;
    Redis.sadd (online_users_key self) (Py.str user_id)
  else ret tt.

Definition handle_event `{Runtime} (self : RedisRoster) (event : string) (data : value)
  : M unit :=
  let* user_id := lift (get_user_id self data) in
  if negb (Py.is_none user_id) then
    if String.eqb event "subscribe" then on_subscribe self user_id data
    else if String.eqb event "unsubscribe" then on_unsubscribe self user_id data
    else ret tt
  else ret tt.

(** What a reader of the store sees: the set [get_online_users]
    returns, and the cardinality [is_user_online] tests. *)
Definition online_users (self : RedisRoster) (w : world) : gset string :=
  Redis.members (online_users_key self) (sets w).

Definition connection_count `{Runtime} (self : RedisRoster) (user_id : value) (w : world)
  : nat :=
  size (Redis.members (connections_key self user_id) (sets w)).

(** The world with the online-users set replaced, or removed. *)
Definition with_online_users (self : RedisRoster) (online : option (gset string))
    (w : world) : world :=
  World (match online with
         | Some s => <[online_users_key self := s]> (sets w)
         | None => delete (online_users_key self) (sets w)
         end) (published w) (hooks w).

(** The loop of [run] over the pairs a generator has yielded. *)
Fixpoint handle_all `{Runtime} (self : RedisRoster) (evs : list (string * value)) : M unit :=
  match evs with
  | [] => ret tt
  | (event, data) :: evs' => handle_event self event data;; handle_all self evs'
  end.

Definition run `{Runtime} (self : RedisRoster) (feed : list message) : M unit :=
  let '(evs, e) := subscribe_listen (jug self) feed in
  handle_all self evs;;
  match e with
  | Some e => lift (Raise e)
  | None => ret tt
  end.

(** ** Juggernaut.subscribe *)

(** The loop of [subscribe] over the pairs a generator has yielded:
    the handler is called with each, in order. *)
Fixpoint for_each (handler : string → value → M unit) (evs : list (string * value))
  : M unit :=
  match evs with
  | [] => ret tt
  | (event, data) :: evs' => handler event data;; for_each handler evs'
  end.

Definition subscribe `{Runtime} (self : Juggernaut) (handler : string → value → M unit)
    (feed : list message) : M unit :=
  let '(evs, e) := subscribe_listen self feed in
  for_each handler evs;;
  match e with
  | Some e => lift (Raise e)
  | None => ret tt
  end.

(** ** What the store says of a user *)

(** The members of the user's connection set. *)
Definition connections `{Runtime} (self : RedisRoster) (user_id : value) (w : world)
  : gset string :=
  Redis.members (connections_key self user_id) (sets w).

(** Every user with a connection on record is in the online-users set. *)
Definition connected_are_online `{Runtime} (self : RedisRoster) (w : world) : Prop :=
  ∀ user_id, 0 < connection_count self user_id w → Py.str user_id ∈ online_users self w.

(** A call of [on_signed_out] with a string for the user. *)
Definition is_sign_out (c : hook_call) : Prop :=
  ∃ u : string, c = on_signed_out_call (VStr u).

(** ** A runtime to evaluate with

    CPython 2.7 keeps a set of up to five strings in a table of eight
    slots and iterates it slot by slot; a string goes to the slot given
    by the low three bits of its hash.  Strings that meet in a slot are
    kept here in the order of insertion, where CPython probes on. *)

Module CPython27.

Definition wrap64 (x : Z) : Z := x `mod` 2 ^ 64.

Definition ord (c : Ascii.ascii) : Z := Z.of_N (Ascii.N_of_ascii c).

Fixpoint hash_loop (x : Z) (s : string) : Z :=
  match s with
  | EmptyString => x
  | String c s' => hash_loop (Z.lxor (wrap64 (1000003 * x)) (ord c)) s'
  end.

(** [string_hash] of stringobject.c, hash randomization off, as an
    unsigned 64-bit number. *)
Definition string_hash (s : string) : Z :=
  match s with
  | EmptyString => 0
  | String c _ =>
      let x := hash_loop (Z.shiftl (ord c) 7) s in
      let x := Z.lxor x (Z.of_nat (String.length s)) in
      if (x =? 2 ^ 64 - 1)%Z then 2 ^ 64 - 2 else x
  end%Z.

Definition slot (s : string) : Z := Z.land (string_hash s) 7.

Definition slot_le (a b : string) : Prop := (slot a ≤ slot b)%Z.

#[global] Instance slot_le_dec a b : Decision (slot_le a b) :=
  Z.le_dec (slot a) (slot b).

Definition set_order (l : list string) : list string :=
  merge_sort slot_le (remove_dups l).

Definition join (sep : string) (l : list string) : string :=
  match l with
  | [] => EmptyString
  | x :: l' => fold_left (fun acc y => acc +:+ sep +:+ y) l' x
  end.

Definition quote (s : string) : string := String "034" (s +:+ String "034" EmptyString).

(** [json.dumps] for strings that need no escaping. *)
Fixpoint dumps (v : value) : string :=
  match v with
  | VNone => "null"
  | VBool true => "true"
  | VBool false => "false"
  | VInt n => pretty n
  | VStr s => quote s
  | VList l => "[" +:+ join ", " (map dumps l) +:+ "]"
  | VDict d =>
      "{" +:+ join ", " (map (fun kv => quote kv.1 +:+ ": " +:+ dumps kv.2) d) +:+ "}"
  end.

(** [json.loads] on the few texts the examples use. *)
Definition loads (s : string) : option value :=
  if String.eqb s "null" then Some VNone
  else if String.eqb s "{}" then Some (VDict [])
  else if String.eqb s "[]" then Some (VList [])
  else None.

(** The text of a list or a dict is stood in for by its JSON text. *)
Definition runtime : Runtime :=
  {| repr_container := dumps;
     set_iteration := set_order;
     json_dumps := dumps;
     json_loads := loads |}.

End CPython27.

Definition empty_world : world := World ∅ [] [].

(** In the words of the specification: the channels [subscribe],
    [unsubscribe] and [custom] under a namespace prefix. *)
Definition spec_channels (prefix : string) : gset string :=
  list_to_set ((fun name => prefix +:+ ":" +:+ name) <$> ["subscribe"; "unsubscribe"; "custom"]).

(** The lexicographic order of strings, by character code. *)
Definition string_le (a b : string) : Prop := String.leb a b = true.

(** In the words of the specification: the envelope has its channels
    as a sorted list. *)
Definition spec_channels_sorted (d : list (string * value)) : Prop :=
  ∃ names, Py.lookup "channels" d = Some (VList (VStr <$> names)) ∧
           Sorted string_le names.

(** * Properties *)

(** ** The Redis commands *)

Section redis_facts.
Implicit Types (m : gmap string (gset string)) (k v : string) (w : world).

Lemma world_eta w : World (sets w) (published w) (hooks w) = w.
Proof. by destruct w. Qed.

Lemma members_insert m k k' (s : gset string) :
  Redis.members k' (<[k := s]> m) = if decide (k = k') then s else Redis.members k' m.
Proof.
  unfold Redis.members. rewrite lookup_insert.
  by destruct (decide (k = k')).
Qed.

Lemma members_delete m k k' :
  Redis.members k' (delete k m) = if decide (k = k') then ∅ else Redis.members k' m.
Proof.
  unfold Redis.members. rewrite lookup_delete.
  by destruct (decide (k = k')).
Qed.

Lemma members_sadd k v k' w :
  Redis.members k' (sets (exec (Redis.sadd k v) w)) =
  if decide (k = k') then {[v]} ∪ Redis.members k (sets w)
  else Redis.members k' (sets w).
Proof. apply members_insert. Qed.

Lemma members_srem k v k' w :
  Redis.members k' (sets (exec (Redis.srem k v) w)) =
  if decide (k = k') then Redis.members k (sets w) ∖ {[v]}
  else Redis.members k' (sets w).
Proof.
  unfold exec, Redis.srem; simpl.
  destruct (decide (Redis.members k (sets w) ∖ {[v]} = ∅)) as [E|E].
  - rewrite members_delete. destruct (decide (k = k')); by rewrite ?E.
  - apply members_insert.
Qed.

(** SADD of a member changes nothing. *)
Lemma sadd_present k v w :
  v ∈ Redis.members k (sets w) → Redis.sadd k v w = (Return tt, w).
Proof.
  intros Hin. unfold Redis.sadd. f_equal.
  destruct w as [m pub hs]; simpl in *. f_equal.
  apply insert_id. unfold Redis.members in *.
  destruct (m !! k) as [s|] eqn:E; simpl in *; [|set_solver].
  f_equal. symmetry. apply subseteq_union_1_L. by apply singleton_subseteq_l.
Qed.

Lemma member_size_pos (s : gset string) v : v ∈ s → 0 < size s.
Proof.
  intros Hin. destruct (decide (size s = 0)) as [Hz|Hz]; [|lia].
  apply size_empty_inv in Hz. set_solver.
Qed.

Lemma sadd_grows k v k' w :
  Redis.members k' (sets w) ⊆ Redis.members k' (sets (exec (Redis.sadd k v) w)).
Proof.
  rewrite members_sadd. destruct (decide (k = k')) as [->|]; set_solver.
Qed.

Lemma sadd_member k v w : v ∈ Redis.members k (sets (exec (Redis.sadd k v) w)).
Proof. rewrite members_sadd. rewrite decide_True by done. set_solver. Qed.

End redis_facts.

(** ** The keys of the roster *)

Lemma append_cancel_l (p a b : string) : p +:+ a = p +:+ b → a = b.
Proof. induction p as [|c p IH]; simpl; [done|]. intros [= E]. auto. Qed.

Lemma connections_key_not_online `{Runtime} (self : RedisRoster) (user_id : value) :
  connections_key self user_id ≠ online_users_key self.
Proof.
  unfold connections_key, online_users_key. intros E.
  apply append_cancel_l in E. discriminate E.
Qed.

(** ** The handlers, step by step *)

Section roster_steps.
Context `{Runtime} (self : RedisRoster).
Implicit Types (user_id data session_id : value) (w : world).

Lemma get_online_users_eq w :
  get_online_users self w = (Return (online_users self w), w).
Proof. reflexivity. Qed.

Lemma is_user_online_eq user_id w :
  is_user_online self user_id w =
  (Return (bool_decide (0 < connection_count self user_id w)), w).
Proof. reflexivity. Qed.

Lemma on_subscribe_raises user_id data e w :
  Py.getitem data "session_id" = Raise e →
  on_subscribe self user_id data w = (Raise e, w).
Proof. intros E. unfold on_subscribe, bind, lift. by rewrite E. Qed.

(** With a session identifier at hand [on_subscribe] is two SADDs:
    the cardinality it tests is read after the first, and is not 0. *)
Lemma on_subscribe_returns user_id data session_id w :
  Py.getitem data "session_id" = Return session_id →
  on_subscribe self user_id data w =
  (Return tt,
   exec (Redis.sadd (online_users_key self) (Py.str user_id))
     (exec (Redis.sadd (connections_key self user_id) (Py.str session_id)) w)).
Proof.
  intros E. unfold on_subscribe, bind, lift. rewrite E. simpl.
  rewrite bool_decide_eq_false_2; [done|].
  rewrite members_insert, decide_True by done.
  intros Hz. apply size_empty_inv in Hz. set_solver.
Qed.

Lemma on_unsubscribe_raises user_id data e w :
  Py.getitem data "session_id" = Raise e →
  on_unsubscribe self user_id data w = (Raise e, w).
Proof. intros E. unfold on_unsubscribe, bind, lift. by rewrite E. Qed.

Lemma on_unsubscribe_returns user_id data session_id w :
  Py.getitem data "session_id" = Return session_id →
  let w1 := exec (Redis.srem (connections_key self user_id) (Py.str session_id)) w in
  on_unsubscribe self user_id data w =
  (Return tt,
   if bool_decide (connection_count self user_id w1 = 0) then
     exec (Redis.sadd (online_users_key self) (Py.str user_id))
       (exec (on_signed_out user_id) w1)
   else w1).
Proof.
  intros E. unfold on_unsubscribe, bind, lift. rewrite E. simpl.
  unfold connection_count, exec. simpl.
  by destruct (bool_decide _).
Qed.

Lemma handle_event_unfold event data w :
  handle_event self event data w =
  match get_user_id self data with
  | Raise e => (Raise e, w)
  | Return VNone => (Return tt, w)
  | Return user_id =>
      if String.eqb event "subscribe" then on_subscribe self user_id data w
      else if String.eqb event "unsubscribe" then on_unsubscribe self user_id data w
      else (Return tt, w)
  end.
Proof.
  unfold handle_event, bind, lift.
  destruct (get_user_id self data) as [[]|]; simpl; try done;
    by repeat destruct (String.eqb _ _).
Qed.

End roster_steps.

(** ** The online-users set only grows *)

Section online_users_grow.
Context `{Runtime} (self : RedisRoster).
Implicit Types (user_id data session_id : value) (w : world).

Lemma srem_connections_keeps_online user_id (v : string) w :
  online_users self (exec (Redis.srem (connections_key self user_id) v) w) =
  online_users self w.
Proof.
  unfold online_users. rewrite members_srem.
  by rewrite decide_False by apply connections_key_not_online.
Qed.

Lemma on_subscribe_grows user_id data w :
  online_users self w ⊆ online_users self (exec (on_subscribe self user_id data) w).
Proof.
  destruct (Py.getitem data "session_id") as [session_id|e] eqn:E.
  - unfold exec at 1. rewrite (on_subscribe_returns _ _ _ session_id) by done.
    simpl. unfold online_users.
    etrans; [|apply sadd_grows]. apply sadd_grows.
  - unfold exec. by rewrite (on_subscribe_raises _ _ _ e).
Qed.

Lemma on_subscribe_marks user_id data session_id w :
  Py.getitem data "session_id" = Return session_id →
  Py.str user_id ∈ online_users self (exec (on_subscribe self user_id data) w).
Proof.
  intros E. unfold exec at 1. rewrite (on_subscribe_returns _ _ _ session_id) by done.
  apply sadd_member.
Qed.

Lemma on_unsubscribe_grows user_id data w :
  online_users self w ⊆ online_users self (exec (on_unsubscribe self user_id data) w).
Proof.
  destruct (Py.getitem data "session_id") as [session_id|e] eqn:E.
  - unfold exec at 1. rewrite (on_unsubscribe_returns _ _ _ session_id) by done.
    simpl. destruct (bool_decide _).
    + etrans; [|apply sadd_grows].
      change (online_users self w ⊆
              online_users self
                (exec (Redis.srem (connections_key self user_id) (Py.str session_id)) w)).
      by rewrite srem_connections_keeps_online.
    + by rewrite srem_connections_keeps_online.
  - unfold exec. by rewrite (on_unsubscribe_raises _ _ _ e).
Qed.

Lemma handle_event_grows event data w :
  online_users self w ⊆ online_users self (exec (handle_event self event data) w).
Proof.
  unfold exec. rewrite handle_event_unfold.
  destruct (get_user_id self data) as [user_id|]; [|done].
  destruct (String.eqb event "subscribe").
  { destruct user_id; try done; apply on_subscribe_grows. }
  destruct (String.eqb event "unsubscribe").
  { destruct user_id; try done; apply on_unsubscribe_grows. }
  by destruct user_id.
Qed.

Lemma handle_all_grows evs w :
  online_users self w ⊆ online_users self (exec (handle_all self evs) w).
Proof.
  revert w. induction evs as [|[event data] evs IH]; intros w; [done|].
  unfold exec; simpl. unfold bind.
  pose proof (handle_event_grows event data w) as Hstep. unfold exec in Hstep.
  destruct (handle_event self event data w) as [[[]|e] w1]; simpl in *; [|done].
  etrans; [exact Hstep|]. apply IH.
Qed.

Lemma run_grows feed w :
  online_users self w ⊆ online_users self (exec (run self feed) w).
Proof.
  unfold exec, run. destruct (subscribe_listen (jug self) feed) as [evs e].
  unfold bind.
  pose proof (handle_all_grows evs w) as Hall. unfold exec in Hall.
  destruct (handle_all self evs w) as [[[]|e'] w1]; simpl in *; [|done].
  by destruct e.
Qed.

(** C9: no method of the roster takes a member out of the
    online-users set.  [on_subscribe], [on_unsubscribe],
    [handle_event] and [run] leave it with at least the members it
    had, the two readers leave the world as it is, and [on_subscribe]
    on an event that carries a session identifier leaves the user in
    the set, whatever the state it started from. *)
Theorem online_users_never_shrink :
  (∀ user_id data w,
     online_users self w ⊆ online_users self (exec (on_subscribe self user_id data) w)) ∧
  (∀ user_id data w,
     online_users self w ⊆ online_users self (exec (on_unsubscribe self user_id data) w)) ∧
  (∀ event data w,
     online_users self w ⊆ online_users self (exec (handle_event self event data) w)) ∧
  (∀ feed w, online_users self w ⊆ online_users self (exec (run self feed) w)) ∧
  (∀ w, exec (get_online_users self) w = w) ∧
  (∀ user_id w, exec (is_user_online self user_id) w = w) ∧
  (∀ user_id data session_id w,
     Py.getitem data "session_id" = Return session_id →
     Py.str user_id ∈ online_users self (exec (on_subscribe self user_id data) w)).
Proof.
  repeat split.
  - apply on_subscribe_grows.
  - apply on_unsubscribe_grows.
  - apply handle_event_grows.
  - apply run_grows.
  - apply on_subscribe_marks.
Qed.

End online_users_grow.

(** ** Reading a user's presence *)

Section presence.
Context `{Runtime} (self : RedisRoster).
Implicit Types (user_id data session_id : value) (w : world).

(** Rewriting the online-users set does not touch a connection set. *)
Lemma connection_count_apart user_id online w :
  connection_count self user_id (with_online_users self online w) =
  connection_count self user_id w.
Proof.
  unfold connection_count, with_online_users, Redis.members; simpl.
  pose proof (connections_key_not_online self user_id) as Hne.
  destruct online as [s|].
  - by rewrite lookup_insert_ne.
  - by rewrite lookup_delete_ne.
Qed.

(** C6: [is_user_online] answers [True] exactly when the user's
    connection set has a member, and [False] exactly when it has
    none; it changes nothing, and its answer is the same whatever
    the online-users set holds, or whether it is there at all. *)
Theorem is_user_online_counts_connections user_id w :
  ((is_user_online self user_id w).1 = Return true ↔
     0 < connection_count self user_id w) ∧
  ((is_user_online self user_id w).1 = Return false ↔
     connection_count self user_id w = 0) ∧
  exec (is_user_online self user_id) w = w ∧
  (∀ online : option (gset string),
     (is_user_online self user_id (with_online_users self online w)).1 =
     (is_user_online self user_id w).1).
Proof.
  split_and!; [split|split|done|intros online];
    rewrite ?is_user_online_eq; cbn [fst].
  - intros [= E]. by apply bool_decide_eq_true in E.
  - intros Hc. by rewrite bool_decide_eq_true_2.
  - intros [= E]. apply bool_decide_eq_false in E. lia.
  - intros Hc. rewrite bool_decide_eq_false_2; [done|lia].
  - by rewrite connection_count_apart.
Qed.

End presence.

(** ** Subscribe events *)

Section subscribe.
Context `{Runtime} (self : RedisRoster).
Implicit Types (user_id data session_id : value) (w : world).

(** [on_subscribe] calls no hook, in any state. *)
Lemma on_subscribe_calls_no_hook user_id data w :
  hooks (exec (on_subscribe self user_id data) w) = hooks w.
Proof.
  unfold exec.
  destruct (Py.getitem data "session_id") as [session_id|e] eqn:E.
  - by rewrite (on_subscribe_returns _ _ _ session_id).
  - by rewrite (on_subscribe_raises _ _ _ e).
Qed.

(** A second [on_subscribe] with the same arguments finds both
    members in place. *)
Lemma on_subscribe_again user_id data w :
  let w1 := exec (on_subscribe self user_id data) w in
  exec (on_subscribe self user_id data) w1 = w1.
Proof.
  intros w1. subst w1. unfold exec.
  destruct (Py.getitem data "session_id") as [session_id|e] eqn:E.
  - rewrite !(on_subscribe_returns _ _ _ session_id) by done. simpl.
    set (w1 := exec (Redis.sadd (connections_key self user_id) (Py.str session_id)) w).
    set (w2 := exec (Redis.sadd (online_users_key self) (Py.str user_id)) w1).
    assert (exec (Redis.sadd (connections_key self user_id) (Py.str session_id)) w2 = w2)
      as ->.
    { unfold exec. rewrite sadd_present; [done|].
      apply sadd_grows, sadd_member. }
    unfold exec. rewrite sadd_present; [done|]. apply sadd_member.
  - by rewrite !(on_subscribe_raises _ _ _ e).
Qed.

Lemma handle_subscribe_again data w :
  let w1 := exec (handle_event self "subscribe" data) w in
  exec (handle_event self "subscribe" data) w1 = w1.
Proof.
  intros w1. subst w1. unfold exec. rewrite !handle_event_unfold.
  destruct (get_user_id self data) as [user_id|]; [|done].
  destruct user_id; simpl; try done; apply on_subscribe_again.
Qed.

(** C4: when the same subscribe event is delivered a second time,
    every user's connection count is what it was after the first
    delivery, and the record of hook calls has not grown: no second
    [on_signed_in]. *)
Theorem subscribe_redelivery data w :
  let w1 := exec (handle_event self "subscribe" data) w in
  let w2 := exec (handle_event self "subscribe" data) w1 in
  (∀ user_id, connection_count self user_id w2 = connection_count self user_id w1) ∧
  hooks w2 = hooks w1.
Proof.
  intros w1 w2. subst w2.
  pose proof (handle_subscribe_again data w) as E. simpl in E. fold w1 in E.
  by rewrite E.
Qed.

(** C10: the user identity is the text of the value stored under the
    configured key of [meta]: [get_user_id] returns [unicode] of it,
    a subscribe event with a session identifier records the user
    under that text in the online-users set and keys the connection
    set by it, [is_user_online] finds the user both by the raw value
    and by its text, and [get_online_users] returns a set that has
    the text.  In every world the query by the raw value is the query
    by its text, outcome and world: both read the cardinality of the
    set under the prefix, [connections:] and the text. *)
Theorem user_id_is_text_of_meta_value d meta v :
  Py.lookup "meta" d = Some (VDict meta) →
  Py.lookup (user_meta_key self) meta = Some v →
  get_user_id self (VDict d) = Return (VStr (Py.unicode v)) ∧
  (∀ session_id w,
     Py.lookup "session_id" d = Some session_id →
     let w' := exec (handle_event self "subscribe" (VDict d)) w in
     Py.unicode v ∈ online_users self w' ∧
     Py.str session_id ∈
       Redis.members (key_prefix self +:+ "connections:" +:+ Py.unicode v) (sets w') ∧
     (is_user_online self v w').1 = Return true ∧
     (is_user_online self (VStr (Py.unicode v)) w').1 = Return true ∧
     (∃ reported, (get_online_users self w').1 = Return reported ∧
                  Py.unicode v ∈ reported)) ∧
  (∀ w,
     is_user_online self v w = is_user_online self (VStr (Py.unicode v)) w ∧
     is_user_online self v w =
       (Return (bool_decide
                  (0 < size (Redis.members
                               (key_prefix self +:+ "connections:" +:+ Py.unicode v)
                               (sets w)))), w)).
Proof.
  intros Hmeta Hv.
  assert (get_user_id self (VDict d) = Return (VStr (Py.unicode v))) as Hid.
  { assert (Py.truthy (VDict meta) = true) as Ht
      by (destruct meta; [discriminate Hv|done]).
    unfold get_user_id. cbn [Py.get and_then]. rewrite Hmeta. cbn [default from_option id].
    rewrite Ht. cbn [Py.get and_then]. by rewrite Hv. }
  split; [done|]. split; [|by intros w]. intros session_id w Hsid w'.
  assert (w' = exec (Redis.sadd (online_users_key self) (Py.unicode v))
                 (exec (Redis.sadd (connections_key self (VStr (Py.unicode v)))
                          (Py.str session_id)) w)) as ->.
  { subst w'. unfold exec at 1. rewrite handle_event_unfold, Hid. simpl.
    rewrite (on_subscribe_returns _ _ _ session_id); [done|].
    simpl. by rewrite Hsid. }
  set (w2 := exec (Redis.sadd (online_users_key self) (Py.unicode v)) _).
  assert (Py.str session_id ∈
            Redis.members (key_prefix self +:+ "connections:" +:+ Py.unicode v) (sets w2))
    as Hin by apply sadd_grows, sadd_member.
  assert (∀ u, Py.str u = Py.unicode v → (is_user_online self u w2).1 = Return true)
    as Hon.
  { intros u Hu. rewrite is_user_online_eq. cbn [fst]. f_equal.
    apply bool_decide_eq_true_2. unfold connection_count, connections_key.
    rewrite Hu. by eapply member_size_pos. }
  split_and!; [apply sadd_member|done|by apply Hon|by apply Hon|].
  exists (online_users self w2). split; [done|apply sadd_member].
Qed.

End subscribe.

(** ** Unsubscribe events *)

Section unsubscribe.
Context `{Runtime} (self : RedisRoster).
Implicit Types (user_id data session_id : value) (w : world).

(** While the user keeps a connection, [on_unsubscribe] is the SREM
    alone: no hook, and the online-users set as it was. *)
Lemma on_unsubscribe_still_connected user_id data session_id w :
  Py.getitem data "session_id" = Return session_id →
  let w1 := exec (Redis.srem (connections_key self user_id) (Py.str session_id)) w in
  0 < connection_count self user_id w1 →
  exec (on_unsubscribe self user_id data) w = w1 ∧
  hooks w1 = hooks w ∧
  online_users self w1 = online_users self w.
Proof.
  intros E w1 Hpos. unfold exec at 1.
  rewrite (on_unsubscribe_returns _ _ _ session_id) by done. cbn [snd].
  fold w1. rewrite bool_decide_eq_false_2 by lia.
  split_and!; [done|done|apply srem_connections_keeps_online].
Qed.

(** With the last connection gone, [on_signed_out] is called once and
    the user is put into the online-users set. *)
Lemma on_unsubscribe_last_connection user_id data session_id w :
  Py.getitem data "session_id" = Return session_id →
  let w1 := exec (Redis.srem (connections_key self user_id) (Py.str session_id)) w in
  connection_count self user_id w1 = 0 →
  let w' := exec (on_unsubscribe self user_id data) w in
  hooks w' = (hooks w ++ [on_signed_out_call user_id])%list ∧
  Py.str user_id ∈ online_users self w'.
Proof.
  intros E w1 Hz w'. subst w'. unfold exec at 1 2.
  rewrite (on_unsubscribe_returns _ _ _ session_id) by done. cbn [snd].
  fold w1. rewrite bool_decide_eq_true_2 by done.
  split; [done|apply sadd_member].
Qed.

End unsubscribe.

(** ** Events without a user *)

Section anonymous.
Context `{Runtime} (self : RedisRoster).

(** No [meta] in the data, or an empty one: nothing happens. *)
Lemma handle_event_without_meta event d w :
  Py.lookup "meta" d = None ∨ Py.lookup "meta" d = Some (VDict []) →
  handle_event self event (VDict d) w = (Return tt, w).
Proof.
  intros Hmeta. rewrite handle_event_unfold.
  unfold get_user_id. cbn [Py.get and_then].
  by destruct Hmeta as [-> | ->].
Qed.

(** A [meta] that has items but not the configured key names the
    user [None], as text. *)
Lemma get_user_id_without_key d kv meta :
  Py.lookup "meta" d = Some (VDict (kv :: meta)) →
  Py.lookup (user_meta_key self) (kv :: meta) = None →
  get_user_id self (VDict d) = Return (VStr "None").
Proof.
  intros Hmeta Hkey. unfold get_user_id. cbn [Py.get and_then].
  rewrite Hmeta. cbn [default from_option id Py.truthy Py.get and_then].
  by rewrite Hkey.
Qed.

End anonymous.

(** ** The handlers at work *)

Section evaluation.
#[local] Existing Instance CPython27.runtime.

(** C1: the first session of a user.  The user's connection count is
    0 when the event arrives and 1 after it, [on_subscribe] returns,
    and the record of hook calls is empty: [on_signed_in] was not
    called. *)
Theorem first_session_signs_nobody_in :
  let data := VDict [("session_id", VStr "s1")] in
  let m := on_subscribe default_roster (VStr "u1") data in
  connection_count default_roster (VStr "u1") empty_world = 0 ∧
  (m empty_world).1 = Return tt ∧
  connection_count default_roster (VStr "u1") (exec m empty_world) = 1 ∧
  hooks (exec m empty_world) = [].
Proof. vm_compute. done. Qed.

(** C2: the last session of a user goes.  After the unsubscribe the
    connection count is 0 and [on_signed_out] has been called once,
    and the user is still a member of the online-users set. *)
Theorem last_session_leaves_user_online :
  let data := VDict [("session_id", VStr "s1")] in
  let w1 := exec (on_subscribe default_roster (VStr "u1") data) empty_world in
  let w2 := exec (on_unsubscribe default_roster (VStr "u1") data) w1 in
  connection_count default_roster (VStr "u1") w1 = 1 ∧
  elements (online_users default_roster w1) = ["u1"] ∧
  connection_count default_roster (VStr "u1") w2 = 0 ∧
  hooks w2 = [on_signed_out_call (VStr "u1")] ∧
  elements (online_users default_roster w2) = ["u1"].
Proof. vm_compute. done. Qed.

(** C3: a subscribe event and the matching unsubscribe event, handled
    in turn from the empty store.  The user's connection set is
    empty and [is_user_online] says [False], yet the online-users
    set has the user. *)
Theorem online_users_disagree_with_count :
  let data :=
    VDict [("meta", VDict [("user_id", VStr "u1")]); ("session_id", VStr "s1")] in
  let m := handle_all default_roster [("subscribe", data); ("unsubscribe", data)] in
  (m empty_world).1 = Return tt ∧
  connection_count default_roster (VStr "u1") (exec m empty_world) = 0 ∧
  (is_user_online default_roster (VStr "u1") (exec m empty_world)).1 = Return false ∧
  elements (online_users default_roster (exec m empty_world)) = ["u1"].
Proof. vm_compute. done. Qed.

(** C5: a subscribe event whose [meta] has an item, but none under
    [user_id].  [get_user_id] returns the text [None], the event is
    handled for a user of that name, and the store has changed. *)
Theorem missing_user_id_is_tracked_as_None :
  let data :=
    VDict [("meta", VDict [("name", VStr "x")]); ("session_id", VStr "s1")] in
  let m := handle_event default_roster "subscribe" data in
  get_user_id default_roster data = Return (VStr "None") ∧
  (m empty_world).1 = Return tt ∧
  connection_count default_roster (VStr "None") (exec m empty_world) = 1 ∧
  elements (online_users default_roster (exec m empty_world)) = ["None"] ∧
  exec m empty_world ≠ empty_world.
Proof. vm_compute. split_and!; done. Qed.

End evaluation.

(** ** Listening for events *)

Section listening.
Context `{Runtime}.
Implicit Types (m : message) (ms : list message) (y : string * value).

Lemma decode_returns m y :
  decode m = Return y ↔
  Py.after_first ":" (channel m) = Some y.1 ∧ json_loads (payload m) = Some y.2.
Proof.
  unfold decode. destruct y as [event data]; simpl.
  destruct (Py.after_first _ _) as [event'|]; [|naive_solver].
  destruct (json_loads _) as [data'|]; naive_solver.
Qed.

Lemma decode_raises m e :
  decode m = Raise e ↔
  (Py.after_first ":" (channel m) = None ∧ e = IndexError) ∨
  (is_Some (Py.after_first ":" (channel m)) ∧ json_loads (payload m) = None ∧
   e = ValueError).
Proof.
  unfold decode.
  destruct (Py.after_first _ _) as [event'|].
  - destruct (json_loads _) as [data'|]; split.
    + intros [=].
    + intros [[[=] _]|(_ & [=] & _)].
    + intros [= <-]. right. eauto.
    + by intros [[[=] _]|(_ & _ & ->)].
  - split.
    + intros [= <-]. by left.
    + by intros [[_ ->]|[[? [=]] _]].
Qed.

(** The generator handles the messages in order, one pair for each,
    and stops at the first that [decode] raises on. *)
Lemma yields_in_order ms :
  ∃ handled rest,
    ms = (handled ++ rest)%list ∧
    Forall2 (fun m y => decode m = Return y) handled (yields ms).1 ∧
    match (yields ms).2 with
    | None => rest = []
    | Some e => ∃ m rest', rest = m :: rest' ∧ decode m = Raise e
    end.
Proof.
  induction ms as [|m ms (handled & rest & Hms & Hall & Hend)]; simpl.
  - exists [], []. by repeat constructor.
  - destruct (decode m) as [y|e] eqn:E.
    + destruct (yields ms) as [ys e]. simpl in *.
      exists (m :: handled), rest. rewrite Hms. split_and!; [done| |done].
      by constructor.
    + exists [], (m :: ms). simpl. split_and!; [done|constructor|eauto].
Qed.

Lemma subscriptions_eq (self : Juggernaut) :
  subscriptions self =
  {["juggernaut:subscribe"; "juggernaut:unsubscribe"; "juggernaut:custom"]}.
Proof. unfold subscriptions, events; simpl. set_solver. Qed.

(** On a subscribed channel the event name is there to be split off. *)
Lemma subscribed_event_name (self : Juggernaut) (c : string) :
  c ∈ subscriptions self →
  ∃ event, Py.after_first ":" c = Some event ∧
           event ∈ ["subscribe"; "unsubscribe"; "custom"].
Proof.
  rewrite subscriptions_eq. intros Hc.
  apply elem_of_union in Hc as [Hc|Hc]; [apply elem_of_union in Hc as [Hc|Hc]|];
    apply elem_of_singleton in Hc as ->; eexists; (split; [reflexivity|]);
    set_solver.
Qed.

(** C7, as the code has it: the subscriptions are the three channels
    [juggernaut:subscribe], [juggernaut:unsubscribe] and
    [juggernaut:custom], whatever the key of the instance.  Of the
    messages on these channels, in the order of the feed, the
    generator yields for each the pair of the channel name's part
    after the first colon, one of [subscribe], [unsubscribe] and
    [custom], and the parsed payload; it ends with the feed, or with
    [ValueError] at the first payload that does not parse. *)
Theorem subscribe_listen_fixed_channels (self : Juggernaut) (feed : list message) :
  subscriptions self =
    {["juggernaut:subscribe"; "juggernaut:unsubscribe"; "juggernaut:custom"]} ∧
  size (subscriptions self) = 3 ∧
  ∃ handled rest,
    filter (fun m => channel m ∈ subscriptions self) feed = (handled ++ rest)%list ∧
    Forall2 (fun m y =>
               Py.after_first ":" (channel m) = Some y.1 ∧
               y.1 ∈ ["subscribe"; "unsubscribe"; "custom"] ∧
               json_loads (payload m) = Some y.2)
            handled (subscribe_listen self feed).1 ∧
    match (subscribe_listen self feed).2 with
    | None => rest = []
    | Some e =>
        ∃ m rest', rest = m :: rest' ∧ json_loads (payload m) = None ∧ e = ValueError
    end.
Proof.
  split; [apply subscriptions_eq|]. split; [by vm_compute|].
  unfold subscribe_listen, listen.
  set (delivered := filter _ feed).
  assert (Forall (fun m => channel m ∈ subscriptions self) delivered) as Hsub.
  { apply Forall_forall. intros m Hm. by apply list_elem_of_filter in Hm as [? _]. }
  destruct (yields_in_order delivered) as (handled & rest & Hd & Hall & Hend).
  exists handled, rest. rewrite Hd in Hsub. apply Forall_app in Hsub as [Hh Hr].
  split_and!; [done| |].
  - clear Hend Hd. induction Hall as [|m y ms ys Hy Hall IH]; [constructor|].
    apply Forall_cons in Hh as [Hm Hh]. constructor; [|by apply IH].
    apply decode_returns in Hy as [Hev Hdata].
    destruct (subscribed_event_name self _ Hm) as (event & Hev' & Hin).
    split_and!; [done| |done]. congruence.
  - destruct (yields delivered).2 as [e|]; [|done].
    destruct Hend as (m & rest' & -> & Hraise).
    exists m, rest'. apply Forall_cons in Hr as [Hm _].
    destruct (subscribed_event_name self _ Hm) as (event & Hev & _).
    apply decode_raises in Hraise as [[Hnone _]|(_ & Hload & ->)]; [congruence|done].
Qed.

End listening.

(** C7, as stated, fails for an instance with a key of its own: the
    subscriptions of a client with key [chat] are not the three
    channels under [chat]; a message on [chat:subscribe] is not
    delivered, one on [juggernaut:subscribe] is. *)
Lemma subscriptions_ignore_key :
  let self := {| key := "chat" |} in
  subscriptions self ≠ spec_channels (key self) ∧
  subscribe_listen (H := CPython27.runtime) self
    [{| channel := "chat:subscribe"; payload := "{}" |}] = ([], None) ∧
  subscribe_listen (H := CPython27.runtime) self
    [{| channel := "juggernaut:subscribe"; payload := "{}" |}] =
    ([("subscribe", VDict [])], None).
Proof.
  split_and!; [|by vm_compute..].
  intros E.
  assert ("chat:subscribe" ∈ subscriptions {| key := "chat" |}) as Hin.
  { rewrite E. unfold spec_channels; simpl. set_solver. }
  rewrite subscriptions_eq in Hin.
  apply elem_of_union in Hin as [Hin|Hin]; [apply elem_of_union in Hin as [Hin|Hin]|];
    apply elem_of_singleton in Hin; discriminate Hin.
Qed.

(** ** Publishing *)

Section dicts.
Implicit Types (k : string) (v : value) (d o : list (string * value)).

Lemma lookup_setitem k' k v d :
  Py.lookup k' (Py.setitem k v d) = if String.eqb k' k then Some v else Py.lookup k' d.
Proof.
  induction d as [|[k0 v0] d IH]; simpl.
  - done.
  - destruct (String.eqb_spec k k0) as [->|Hne]; simpl.
    + by destruct (String.eqb k' k0).
    + rewrite IH. destruct (String.eqb_spec k' k0) as [->|]; [|done].
      by rewrite (proj2 (String.eqb_neq k0 k)).
Qed.

Lemma lookup_update k d o :
  Py.lookup k (Py.update d o) =
  match Py.lookup k o with
  | Some v => Some v
  | None => Py.lookup k d
  end.
Proof.
  induction o as [|[k0 v0] o IH]; simpl; [done|].
  rewrite lookup_setitem, IH. by destruct (String.eqb k k0).
Qed.

End dicts.

Lemma cpython_set_semantics : set_semantics (H := CPython27.runtime).
Proof.
  intros l. simpl. unfold CPython27.set_order.
  pose proof (merge_sort_Permutation CPython27.slot_le (remove_dups l)) as Hp.
  split.
  - rewrite Hp. apply NoDup_remove_dups.
  - intros x. rewrite Hp. apply elem_of_remove_dups.
Qed.

(** C8, as stated, fails where it says sorted: with sets iterated as
    CPython 2.7 iterates them, the envelope for the channels [b] and
    [c] lists [c] before [b]. *)
Lemma envelope_channels_unsorted :
  set_semantics (H := CPython27.runtime) ∧
  Py.lookup "channels"
    (envelope (H := CPython27.runtime) (many_channels ["b"; "c"]) (VStr "hi") VNone []) =
    Some (VList [VStr "c"; VStr "b"]) ∧
  ¬ spec_channels_sorted
      (envelope (H := CPython27.runtime) (many_channels ["b"; "c"]) (VStr "hi") VNone []).
Proof.
  split_and!; [apply cpython_set_semantics|by vm_compute|].
  intros (names & Hnames & Hsorted).
  destruct names as [|a [|b [|c names]]]; vm_compute in Hnames;
    try discriminate Hnames.
  injection Hnames as Ha Hb. subst a b.
  apply Sorted_inv in Hsorted as [_ Hhd]. apply HdRel_inv in Hhd.
  by vm_compute in Hhd.
Qed.

Section publishing.
Context `{Runtime}.

(** C8, as the code has it.  [publish] returns after one PUBLISH, on
    the channel named by the key of the instance, of the serialized
    envelope.  In the envelope a key of the options has the option's
    value.  Where the options leave the key free: [channels] is a
    list of the given names, each once, in the order the set yields
    them (a single name is a collection of one); [data] is the data;
    [except] is the except argument if that is true, and is absent
    if it is [None], or false otherwise; there is no other key. *)
Theorem publish_envelope (self : Juggernaut) (channels : channels_arg)
    (data except_ : value) (options : list (string * value)) (w : world) :
  set_semantics →
  let names :=
    match channels with
    | one_channel name => [name]
    | many_channels names => names
    end in
  let d := envelope channels data except_ options in
  publish self channels data except_ options w =
    (Return tt,
     World (sets w) (published w ++ [(key self, json_dumps (VDict d))]) (hooks w)) ∧
  (∀ k v, Py.lookup k options = Some v → Py.lookup k d = Some v) ∧
  (Py.lookup "channels" options = None →
   ∃ l, Py.lookup "channels" d = Some (VList (VStr <$> l)) ∧
        NoDup l ∧ ∀ x, x ∈ l ↔ x ∈ names) ∧
  (Py.lookup "data" options = None → Py.lookup "data" d = Some data) ∧
  (Py.lookup "except" options = None →
   Py.lookup "except" d = if Py.truthy except_ then Some except_ else None) ∧
  (∀ k, Py.lookup k options = None →
        k ≠ "channels" → k ≠ "data" → k ≠ "except" → Py.lookup k d = None).
Proof.
  intros Hset names d.
  assert (∀ k, Py.lookup k options = None →
            Py.lookup k d =
            if String.eqb k "channels" then Some (VList (VStr <$> set_iteration names))
            else if String.eqb k "data" then Some data
            else if String.eqb k "except" then
                   if Py.truthy except_ then Some except_ else None
            else None) as Hbase.
  { intros k Hk. subst d. unfold envelope. rewrite lookup_update, Hk.
    fold names. destruct (Py.truthy except_); simpl;
      repeat (destruct (String.eqb _ _); try done). }
  split_and!.
  - done.
  - intros k v Hk. subst d. unfold envelope. by rewrite lookup_update, Hk.
  - intros Hk. exists (set_iteration names). rewrite (Hbase _ Hk). simpl.
    destruct (Hset names). done.
  - intros Hk. by rewrite (Hbase _ Hk).
  - intros Hk. by rewrite (Hbase _ Hk).
  - intros k Hk Hc Hd He. rewrite (Hbase _ Hk).
    by rewrite !(proj2 (String.eqb_neq _ _)).
Qed.

End publishing.

(** ** The theorems at an input *)

Section witnesses.
#[local] Existing Instance CPython27.runtime.

(** The call of the module's docstring,
    [jug.publish('channel', {'message': 'Hello World!'})]. *)
Lemma publish_hello_world :
  set_semantics ∧
  publish default_juggernaut (one_channel "channel")
    (VDict [("message", VStr "Hello World!")]) VNone [] empty_world =
  (Return tt,
   World ∅
     [("juggernaut",
       json_dumps (VDict [("channels", VList [VStr "channel"]);
                          ("data", VDict [("message", VStr "Hello World!")])]))]
     []).
Proof.
  split; [exact cpython_set_semantics|].
  exact (proj1 (publish_envelope default_juggernaut (one_channel "channel")
                  (VDict [("message", VStr "Hello World!")]) VNone [] empty_world
                  cpython_set_semantics)).
Defined.

(** A user whose identity arrives as the number 42. *)
Lemma user_42_is_text :
  let d := [("meta", VDict [("user_id", VInt 42)]); ("session_id", VStr "s1")] in
  Py.lookup "meta" d = Some (VDict [("user_id", VInt 42)]) ∧
  Py.lookup (user_meta_key default_roster) [("user_id", VInt 42)] = Some (VInt 42) ∧
  get_user_id default_roster (VDict d) = Return (VStr "42") ∧
  elements (online_users default_roster
              (exec (handle_event default_roster "subscribe" (VDict d)) empty_world)) =
    ["42"].
Proof.
  split_and!; [reflexivity|reflexivity| |by vm_compute].
  exact (proj1 (user_id_is_text_of_meta_value default_roster
                  [("meta", VDict [("user_id", VInt 42)]); ("session_id", VStr "s1")]
                  [("user_id", VInt 42)] (VInt 42) eq_refl eq_refl)).
Defined.

(** A second session of a user who is already in the set. *)
Lemma second_session_keeps_user_online :
  let data := VDict [("session_id", VStr "s2")] in
  let w := exec (on_subscribe default_roster (VStr "u1")
                   (VDict [("session_id", VStr "s1")])) empty_world in
  Py.getitem data "session_id" = Return (VStr "s2") ∧
  "u1" ∈ online_users default_roster (exec (on_subscribe default_roster (VStr "u1") data) w).
Proof.
  split; [reflexivity|].
  exact (proj2 (proj2 (proj2 (proj2 (proj2 (proj2
           (online_users_never_shrink default_roster))))))
           (VStr "u1") (VDict [("session_id", VStr "s2")]) (VStr "s2") _ eq_refl).
Defined.

End witnesses.

(** * More of the code *)

(** ** get_user_id and the exceptions of handle_event *)

Section user_identity.
Context `{Runtime} (self : RedisRoster).
Implicit Types (user_id data session_id : value) (w : world).

Lemma get_user_id_of_dict data user_id :
  get_user_id self data = Return user_id → ∃ d, data = VDict d.
Proof. destruct data; try discriminate; eauto. Qed.

Lemma get_user_id_raises data e :
  get_user_id self data = Raise e → e = AttributeError.
Proof.
  unfold get_user_id. destruct data as [| | | | |d]; try by intros [= <-].
  cbn [Py.get and_then]. destruct (Py.truthy _); [|discriminate].
  destruct (default VNone (Py.lookup "meta" d)); by intros [= <-].
Qed.

(** X1: [get_user_id] returns [None] or a string, never anything else.
    It returns [None] exactly for a dict whose [meta] is missing or
    false ([None], [False], 0, the empty string, list or dict), and it
    raises, with [AttributeError], exactly when the data is no dict or
    its [meta] is true and no dict. *)
Theorem get_user_id_cases data :
  (get_user_id self data = Return VNone ↔
     ∃ d, data = VDict d ∧ Py.truthy (default VNone (Py.lookup "meta" d)) = false) ∧
  ((∃ e, get_user_id self data = Raise e) ↔
     (∀ d, data ≠ VDict d) ∨
     ∃ d meta, data = VDict d ∧ Py.lookup "meta" d = Some meta ∧
               Py.truthy meta = true ∧ ∀ m, meta ≠ VDict m) ∧
  (∀ user_id, get_user_id self data = Return user_id →
     user_id = VNone ∨ ∃ u : string, user_id = VStr u) ∧
  (∀ e, get_user_id self data = Raise e → e = AttributeError).
Proof.
  split_and!.
  - split.
    + intros E. destruct (get_user_id_of_dict _ _ E) as [d ->]. exists d.
      split; [done|]. unfold get_user_id in E. cbn [Py.get and_then] in E.
      destruct (Py.truthy _); [|done].
      by destruct (default VNone (Py.lookup "meta" d)).
    + intros (d & -> & Hf). unfold get_user_id. cbn [Py.get and_then]. by rewrite Hf.
  - split.
    + intros [e E]. destruct data as [| | | | |d];
        try (left; intros d' [=]; fail).
      right. unfold get_user_id in E. cbn [Py.get and_then] in E.
      destruct (Py.lookup "meta" d) as [meta|] eqn:Hm; [|discriminate].
      cbn [default from_option id] in E.
      destruct (Py.truthy meta) eqn:Ht; [|discriminate].
      exists d, meta. split_and!; try done.
      intros m ->. discriminate.
    + intros [Hnd|(d & meta & -> & Hm & Ht & Hnd)].
      * destruct data; try (by eexists); by destruct (Hnd d).
      * unfold get_user_id. cbn [Py.get and_then]. rewrite Hm.
        cbn [default from_option id]. rewrite Ht.
        destruct meta; try (by eexists); by destruct (Hnd d0).
  - intros user_id E. unfold get_user_id in E.
    destruct data as [| | | | |d]; try discriminate.
    cbn [Py.get and_then] in E. destruct (Py.truthy _).
    + destruct (default VNone (Py.lookup "meta" d)); try discriminate.
      injection E as <-. eauto.
    + injection E as <-. by left.
  - apply get_user_id_raises.
Qed.

(** X2: when [handle_event] raises it has changed nothing, and what it
    raises is [AttributeError], from [get_user_id], or [KeyError] for
    [session_id]. *)
Theorem handle_event_raises_before_writing event data w e :
  (handle_event self event data w).1 = Raise e →
  exec (handle_event self event data) w = w ∧
  (e = AttributeError ∨ e = KeyError "session_id").
Proof.
  unfold exec. rewrite handle_event_unfold.
  destruct (get_user_id self data) as [user_id|e'] eqn:Hid.
  - destruct (get_user_id_of_dict _ _ Hid) as [d ->].
    assert (∀ m : M unit,
              (m = on_subscribe self user_id (VDict d) ∨
               m = on_unsubscribe self user_id (VDict d)) →
              (m w).1 = Raise e → (m w).2 = w ∧ e = KeyError "session_id") as Hm.
    { intros m Hor. destruct (Py.getitem (VDict d) "session_id") as [sid|e0] eqn:E.
      - destruct Hor as [-> | ->].
        + by rewrite (on_subscribe_returns _ _ _ sid).
        + by rewrite (on_unsubscribe_returns _ _ _ sid).
      - assert (e0 = KeyError "session_id") as ->.
        { simpl in E. destruct (Py.lookup _ _); by inversion E. }
        destruct Hor as [-> | ->].
        + rewrite (on_subscribe_raises _ _ _ _ _ E). by intros [= <-].
        + rewrite (on_unsubscribe_raises _ _ _ _ _ E). by intros [= <-]. }
    destruct (String.eqb event "subscribe").
    { destruct user_id; try done; intros Hr; destruct (Hm _ (or_introl eq_refl) Hr); auto. }
    destruct (String.eqb event "unsubscribe").
    { destruct user_id; try done; intros Hr; destruct (Hm _ (or_intror eq_refl) Hr); auto. }
    by destruct user_id.
  - simpl. intros [= <-]. split; [done|]. left. by eapply get_user_id_raises.
Qed.

(** X3: an event that is neither [subscribe] nor [unsubscribe] changes
    nothing; [handle_event] returns for it unless [get_user_id]
    raises. *)
Theorem handle_event_other_events event data w :
  event ≠ "subscribe" → event ≠ "unsubscribe" →
  exec (handle_event self event data) w = w ∧
  (handle_event self event data w).1 =
    match get_user_id self data with
    | Return _ => Return tt
    | Raise e => Raise e
    end.
Proof.
  intros Hs Hu. unfold exec. rewrite handle_event_unfold.
  rewrite (proj2 (String.eqb_neq _ _) Hs), (proj2 (String.eqb_neq _ _) Hu).
  by destruct (get_user_id self data) as [[]|].
Qed.

End user_identity.

(** ** The connection sets *)

Section connection_sets.
Context `{Runtime} (self : RedisRoster).
Implicit Types (user_id other data session_id : value) (w : world).

Lemma connections_key_inj user_id other :
  connections_key self user_id = connections_key self other ↔
  Py.str user_id = Py.str other.
Proof.
  unfold connections_key. split; [|by intros ->].
  intros E. apply append_cancel_l in E. by apply (append_cancel_l "connections:") in E.
Qed.

Lemma connections_sadd_online (v : string) other w :
  connections self other (exec (Redis.sadd (online_users_key self) v) w) =
  connections self other w.
Proof.
  unfold connections. rewrite members_sadd, decide_False; [done|].
  intros E. by apply (connections_key_not_online self other).
Qed.

Lemma connections_after_subscribe user_id data session_id other w :
  Py.getitem data "session_id" = Return session_id →
  connections self other (exec (on_subscribe self user_id data) w) =
  if decide (Py.str user_id = Py.str other)
  then {[Py.str session_id]} ∪ connections self other w
  else connections self other w.
Proof.
  intros E. unfold exec at 1. rewrite (on_subscribe_returns _ _ _ session_id) by done.
  cbn [snd]. rewrite connections_sadd_online. unfold connections.
  rewrite members_sadd.
  destruct (decide (Py.str user_id = Py.str other)) as [Hs|Hs].
  - rewrite decide_True by by apply connections_key_inj.
    by rewrite (proj2 (connections_key_inj user_id other) Hs).
  - rewrite decide_False; [done|]. by rewrite connections_key_inj.
Qed.

Lemma connections_after_srem user_id (v : string) other w :
  connections self other (exec (Redis.srem (connections_key self user_id) v) w) =
  if decide (Py.str user_id = Py.str other)
  then connections self other w ∖ {[v]}
  else connections self other w.
Proof.
  unfold connections. rewrite members_srem.
  destruct (decide (Py.str user_id = Py.str other)) as [Hs|Hs].
  - rewrite decide_True by by apply connections_key_inj.
    by rewrite (proj2 (connections_key_inj user_id other) Hs).
  - rewrite decide_False; [done|]. by rewrite connections_key_inj.
Qed.

Lemma connections_after_unsubscribe user_id data session_id other w :
  Py.getitem data "session_id" = Return session_id →
  connections self other (exec (on_unsubscribe self user_id data) w) =
  if decide (Py.str user_id = Py.str other)
  then connections self other w ∖ {[Py.str session_id]}
  else connections self other w.
Proof.
  intros E. unfold exec at 1. rewrite (on_unsubscribe_returns _ _ _ session_id) by done.
  cbn [snd]. destruct (bool_decide _).
  - rewrite connections_sadd_online.
    change (connections self other (exec (on_signed_out user_id) ?w0))
      with (connections self other w0).
    apply connections_after_srem.
  - apply connections_after_srem.
Qed.

(** X4: [on_subscribe] on an event with a session identifier puts the
    identifier's text into the user's connection set and leaves the
    rest of the set: the count goes up by one for a session not yet
    on record and stays for one that is, and [is_user_online] says
    [True] afterwards. *)
Theorem on_subscribe_records_session user_id data session_id w :
  Py.getitem data "session_id" = Return session_id →
  let w' := exec (on_subscribe self user_id data) w in
  connections self user_id w' = {[Py.str session_id]} ∪ connections self user_id w ∧
  connection_count self user_id w' =
    (if decide (Py.str session_id ∈ connections self user_id w)
     then connection_count self user_id w
     else S (connection_count self user_id w)) ∧
  (is_user_online self user_id w').1 = Return true.
Proof.
  intros E w'.
  assert (connections self user_id w' =
          {[Py.str session_id]} ∪ connections self user_id w) as Hc.
  { subst w'. rewrite (connections_after_subscribe _ _ session_id) by done.
    by rewrite decide_True. }
  assert (connection_count self user_id w' =
          if decide (Py.str session_id ∈ connections self user_id w)
          then connection_count self user_id w
          else S (connection_count self user_id w)) as Hn.
  { change (size (connections self user_id w') =
            if decide (Py.str session_id ∈ connections self user_id w)
            then size (connections self user_id w)
            else S (size (connections self user_id w))).
    rewrite Hc. destruct (decide _) as [Hin|Hout].
    - f_equal. apply subseteq_union_1_L. by apply singleton_subseteq_l.
    - rewrite size_union by set_solver. by rewrite size_singleton. }
  split_and!; [done|done|].
  rewrite is_user_online_eq. cbn [fst]. f_equal. apply bool_decide_eq_true_2.
  rewrite Hn. destruct (decide _) as [Hin|]; [|lia].
  by eapply member_size_pos.
Qed.

Lemma on_unsubscribe_hooks user_id data session_id w :
  Py.getitem data "session_id" = Return session_id →
  hooks (exec (on_unsubscribe self user_id data) w) =
    (if decide (connections self user_id w ∖ {[Py.str session_id]} = ∅)
     then hooks w ++ [on_signed_out_call user_id]
     else hooks w)%list.
Proof.
  intros E. unfold exec at 1.
  rewrite (on_unsubscribe_returns _ _ _ session_id) by done. cbn [snd].
  pose proof (connections_after_srem user_id (Py.str session_id) user_id w) as Hs.
  rewrite decide_True in Hs by done.
  unfold connection_count. fold (connections self user_id
    (exec (Redis.srem (connections_key self user_id) (Py.str session_id)) w)).
  rewrite Hs.
  destruct (decide (connections self user_id w ∖ {[Py.str session_id]} = ∅)) as [He|Hne].
  - rewrite He, size_empty. by rewrite bool_decide_eq_true_2.
  - rewrite bool_decide_eq_false_2; [done|].
    intros Hz. apply size_empty_inv in Hz. apply Hne. by apply leibniz_equiv.
Qed.

(** X5: [on_unsubscribe] on an event with a session identifier takes the
    identifier's text out of the user's connection set and leaves the
    rest: the count goes down by one for a session on record and
    stays for one that is not.  [on_signed_out] is called, once,
    exactly when the set is empty afterwards, so also for a user who
    had no connection on record. *)
Theorem on_unsubscribe_forgets_session user_id data session_id w :
  Py.getitem data "session_id" = Return session_id →
  let w' := exec (on_unsubscribe self user_id data) w in
  connections self user_id w' = connections self user_id w ∖ {[Py.str session_id]} ∧
  connection_count self user_id w' =
    (if decide (Py.str session_id ∈ connections self user_id w)
     then pred (connection_count self user_id w)
     else connection_count self user_id w) ∧
  hooks w' =
    (if decide (connections self user_id w ∖ {[Py.str session_id]} = ∅)
     then hooks w ++ [on_signed_out_call user_id]
     else hooks w)%list.
Proof.
  intros E w'.
  assert (connections self user_id w' =
          connections self user_id w ∖ {[Py.str session_id]}) as Hc.
  { subst w'. rewrite (connections_after_unsubscribe _ _ session_id) by done.
    by rewrite decide_True. }
  split_and!; [done| |].
  - change (size (connections self user_id w') =
            if decide (Py.str session_id ∈ connections self user_id w)
            then pred (size (connections self user_id w))
            else size (connections self user_id w)).
    rewrite Hc. destruct (decide _) as [Hin|Hout].
    + rewrite size_difference by by apply singleton_subseteq_l.
      rewrite size_singleton. lia.
    + f_equal. set_solver.
  - by apply on_unsubscribe_hooks.
Qed.

(** X6: an event changes the connection set of no user but the one
    [get_user_id] names: whatever the event and its data, a user whose
    text is not the returned one keeps the set. *)
Theorem handle_event_spares_other_users event data other w :
  get_user_id self data ≠ Return (VStr (Py.str other)) →
  connections self other (exec (handle_event self event data) w) =
  connections self other w.
Proof.
  intros Hother. unfold exec. rewrite handle_event_unfold.
  destruct (get_user_id self data) as [user_id|e] eqn:Hid; [|done].
  assert (user_id = VNone ∨ ∃ u : string, user_id = VStr u) as [->|[u ->]]; [|done|].
  { unfold get_user_id in Hid. destruct data as [| | | | |d]; try discriminate.
    cbn [Py.get and_then] in Hid. destruct (Py.truthy _).
    - destruct (default VNone (Py.lookup "meta" d)); try discriminate.
      injection Hid as <-. eauto.
    - injection Hid as <-. by left. }
  assert (Py.str (VStr u) ≠ Py.str other) as Hne.
  { simpl. intros ->. by apply Hother. }
  assert (∀ m : M unit,
            (m = on_subscribe self (VStr u) data ∨ m = on_unsubscribe self (VStr u) data) →
            connections self other (m w).2 = connections self other w) as Hm.
  { intros m Hor. destruct (Py.getitem data "session_id") as [sid|e0] eqn:E.
    - destruct Hor as [-> | ->].
      + pose proof (connections_after_subscribe (VStr u) data sid other w E) as Hc.
        by rewrite decide_False in Hc.
      + pose proof (connections_after_unsubscribe (VStr u) data sid other w E) as Hc.
        by rewrite decide_False in Hc.
    - destruct Hor as [-> | ->].
      + by rewrite (on_subscribe_raises _ _ _ _ _ E).
      + by rewrite (on_unsubscribe_raises _ _ _ _ _ E). }
  destruct (String.eqb event "subscribe"); [by apply Hm; left|].
  destruct (String.eqb event "unsubscribe"); [by apply Hm; right|done].
Qed.

(** X7: subscribing a session that is not on record and unsubscribing it
    again leaves every user's connection set as it was. *)
Theorem subscribe_then_unsubscribe user_id data session_id w :
  Py.getitem data "session_id" = Return session_id →
  Py.str session_id ∉ connections self user_id w →
  ∀ other,
    connections self other
      (exec (on_unsubscribe self user_id data) (exec (on_subscribe self user_id data) w)) =
    connections self other w.
Proof.
  intros E Hnew other.
  rewrite (connections_after_unsubscribe _ _ session_id) by done.
  rewrite (connections_after_subscribe _ _ session_id) by done.
  destruct (decide (Py.str user_id = Py.str other)) as [Hs|]; [|done].
  assert (connections self other w = connections self user_id w) as Hsame.
  { unfold connections. by rewrite (proj2 (connections_key_inj user_id other) Hs). }
  rewrite Hsame in *. set_solver.
Qed.

(** X8: two sessions of a user who had none.  With both on record,
    closing the first calls no hook and leaves the user online;
    closing the second calls [on_signed_out], once, and
    [is_user_online] says [False]. *)
Theorem two_sessions_one_sign_out user_id d1 d2 s1 s2 w :
  Py.getitem d1 "session_id" = Return s1 →
  Py.getitem d2 "session_id" = Return s2 →
  Py.str s1 ≠ Py.str s2 →
  connections self user_id w = ∅ →
  let w2 := exec (on_subscribe self user_id d2) (exec (on_subscribe self user_id d1) w) in
  let w3 := exec (on_unsubscribe self user_id d1) w2 in
  let w4 := exec (on_unsubscribe self user_id d2) w3 in
  hooks w3 = hooks w ∧
  (is_user_online self user_id w3).1 = Return true ∧
  hooks w4 = (hooks w ++ [on_signed_out_call user_id])%list ∧
  (is_user_online self user_id w4).1 = Return false.
Proof.
  intros E1 E2 Hne Hempty w2 w3 w4.
  assert (connections self user_id w2 = {[Py.str s2]} ∪ ({[Py.str s1]} ∪ ∅)) as Hc2.
  { subst w2. rewrite (connections_after_subscribe _ _ s2) by done.
    rewrite decide_True by done.
    rewrite (connections_after_subscribe _ _ s1) by done.
    by rewrite decide_True, Hempty. }
  assert (hooks w2 = hooks w) as Hh2.
  { subst w2. by rewrite !on_subscribe_calls_no_hook. }
  assert (connections self user_id w3 = {[Py.str s2]}) as Hc3.
  { subst w3. rewrite (connections_after_unsubscribe _ _ s1) by done.
    rewrite decide_True, Hc2 by done. set_solver. }
  assert (hooks w3 = hooks w) as Hh3.
  { subst w3. rewrite (on_unsubscribe_hooks _ _ s1) by done.
    rewrite decide_False; [done|]. rewrite Hc2. set_solver. }
  assert (connections self user_id w4 = ∅) as Hc4.
  { subst w4. rewrite (connections_after_unsubscribe _ _ s2) by done.
    rewrite decide_True, Hc3 by done. set_solver. }
  split_and!.
  - done.
  - rewrite is_user_online_eq. cbn [fst]. unfold connection_count.
    fold (connections self user_id w3). by rewrite Hc3, size_singleton.
  - subst w4. rewrite (on_unsubscribe_hooks _ _ s2) by done.
    rewrite decide_True; [by rewrite Hh3|]. rewrite Hc3. set_solver.
  - rewrite is_user_online_eq. cbn [fst]. unfold connection_count.
    fold (connections self user_id w4). by rewrite Hc4, size_empty.
Qed.

(** X9: the same unsubscribe event delivered twice.  The second delivery
    finds the connection set as the first left it; when that is
    empty, [on_signed_out] is called by both, and by neither when it
    is not. *)
Theorem unsubscribe_redelivery user_id data session_id w :
  Py.getitem data "session_id" = Return session_id →
  let w1 := exec (on_unsubscribe self user_id data) w in
  let w2 := exec (on_unsubscribe self user_id data) w1 in
  connections self user_id w2 = connections self user_id w1 ∧
  hooks w2 =
    (if decide (connections self user_id w1 = ∅)
     then hooks w ++ [on_signed_out_call user_id; on_signed_out_call user_id]
     else hooks w)%list.
Proof.
  intros E w1 w2.
  assert (connections self user_id w1 =
          connections self user_id w ∖ {[Py.str session_id]}) as Hc1.
  { subst w1. rewrite (connections_after_unsubscribe _ _ session_id) by done.
    by rewrite decide_True. }
  assert (connections self user_id w1 ∖ {[Py.str session_id]} =
          connections self user_id w1) as Hsame by (rewrite Hc1; set_solver).
  split.
  - subst w2. rewrite (connections_after_unsubscribe _ _ session_id) by done.
    by rewrite decide_True.
  - subst w2. rewrite (on_unsubscribe_hooks _ _ session_id) by done.
    rewrite Hsame. subst w1. rewrite (on_unsubscribe_hooks _ _ session_id) by done.
    fold (exec (on_unsubscribe self user_id data) w). rewrite Hc1.
    destruct (decide _); [|done]. by rewrite <- app_assoc.
Qed.

End connection_sets.

(** ** What a run of the roster keeps *)

Section runs.
Context `{Runtime} (self : RedisRoster).
Implicit Types (user_id data session_id : value) (w : world).

Lemma get_user_id_text data user_id :
  get_user_id self data = Return user_id →
  user_id = VNone ∨ ∃ u : string, user_id = VStr u.
Proof.
  intros Hid. unfold get_user_id in Hid. destruct data as [| | | | |d]; try discriminate.
  cbn [Py.get and_then] in Hid. destruct (Py.truthy _).
  - destruct (default VNone (Py.lookup "meta" d)); try discriminate.
    injection Hid as <-. eauto.
  - injection Hid as <-. by left.
Qed.

(** A property of worlds that both handlers keep, for a user given as
    a string, is kept by [handle_event], [handle_all] and [run]. *)
Lemma handle_event_keeps (P : world → Prop) :
  (∀ (u : string) data w, P w → P (exec (on_subscribe self (VStr u) data) w)) →
  (∀ (u : string) data w, P w → P (exec (on_unsubscribe self (VStr u) data) w)) →
  ∀ event data w, P w → P (exec (handle_event self event data) w).
Proof.
  intros Hsub Hunsub event data w Hw. unfold exec. rewrite handle_event_unfold.
  destruct (get_user_id self data) as [user_id|e] eqn:Hid; [|done].
  destruct (get_user_id_text _ _ Hid) as [->|[u ->]]; [done|].
  destruct (String.eqb event "subscribe"); [by apply Hsub|].
  destruct (String.eqb event "unsubscribe"); [by apply Hunsub|done].
Qed.

Lemma handle_all_keeps (P : world → Prop) :
  (∀ event data w, P w → P (exec (handle_event self event data) w)) →
  ∀ evs w, P w → P (exec (handle_all self evs) w).
Proof.
  intros Hstep evs. induction evs as [|[event data] evs IH]; intros w Hw; [done|].
  unfold exec; simpl. unfold bind.
  pose proof (Hstep event data w Hw) as Hw1. unfold exec in Hw1.
  destruct (handle_event self event data w) as [[[]|e] w1]; simpl in *; [|done].
  by apply IH.
Qed.

Lemma run_keeps (P : world → Prop) :
  (∀ event data w, P w → P (exec (handle_event self event data) w)) →
  ∀ feed w, P w → P (exec (run self feed) w).
Proof.
  intros Hstep feed w Hw. unfold exec, run.
  destruct (subscribe_listen (jug self) feed) as [evs e]. unfold bind.
  pose proof (handle_all_keeps P Hstep evs w Hw) as Hall. unfold exec in Hall.
  destruct (handle_all self evs w) as [[[]|e'] w1]; simpl in *; [|done].
  by destruct e.
Qed.

Lemma on_subscribe_keeps_connected user_id data w :
  connected_are_online self w →
  connected_are_online self (exec (on_subscribe self user_id data) w).
Proof.
  intros Hinv other Hpos.
  destruct (Py.getitem data "session_id") as [sid|e] eqn:E.
  - destruct (decide (Py.str user_id = Py.str other)) as [Hs|Hs].
    + rewrite <- Hs. by eapply on_subscribe_marks.
    + apply on_subscribe_grows, Hinv.
      pose proof (connections_after_subscribe self user_id data sid other w E) as Hc.
      rewrite decide_False in Hc by done.
      unfold connection_count in *. unfold connections in Hc. by rewrite <- Hc.
  - unfold exec in *. rewrite (on_subscribe_raises _ _ _ _ _ E) in *. by apply Hinv.
Qed.

Lemma on_unsubscribe_keeps_connected user_id data w :
  connected_are_online self w →
  connected_are_online self (exec (on_unsubscribe self user_id data) w).
Proof.
  intros Hinv other Hpos. apply on_unsubscribe_grows, Hinv.
  destruct (Py.getitem data "session_id") as [sid|e] eqn:E.
  - pose proof (connections_after_unsubscribe self user_id data sid other w E) as Hc.
    unfold connection_count in *. unfold connections in Hc. rewrite Hc in Hpos.
    destruct (decide _); [|done].
    eapply Nat.lt_le_trans; [exact Hpos|]. apply subseteq_size. set_solver.
  - unfold exec in *. by rewrite (on_unsubscribe_raises _ _ _ _ _ E) in *.
Qed.

(** X10: if every user with a connection on record is in the online-users
    set, that is still so after any run of the roster: whatever the
    feed, and whether the run ends with it or with an exception. *)
Theorem run_keeps_connected_online feed w :
  connected_are_online self w →
  connected_are_online self (exec (run self feed) w).
Proof.
  apply (run_keeps (connected_are_online self)).
  apply handle_event_keeps.
  - intros u data w0. apply on_subscribe_keeps_connected.
  - intros u data w0. apply on_unsubscribe_keeps_connected.
Qed.

(** X11: the hook calls of a run are calls of [on_signed_out] with a string
    user, added behind those made before: no run calls
    [on_signed_in]. *)
Theorem run_calls_only_on_signed_out feed w :
  ∃ calls, hooks (exec (run self feed) w) = (hooks w ++ calls)%list ∧
           Forall is_sign_out calls.
Proof.
  apply (run_keeps (fun w' => ∃ calls, hooks w' = (hooks w ++ calls)%list ∧
                                       Forall is_sign_out calls)).
  - apply handle_event_keeps.
    + intros u data w0 Hw0. by rewrite on_subscribe_calls_no_hook.
    + intros u data w0 (calls & Hcalls & Hall).
      destruct (Py.getitem data "session_id") as [sid|e] eqn:E.
      * unfold exec. rewrite (on_unsubscribe_returns _ _ _ sid) by done. cbn [snd].
        destruct (bool_decide _); [|by exists calls].
        exists (calls ++ [on_signed_out_call (VStr u)])%list. simpl.
        rewrite Hcalls, <- app_assoc. split; [done|].
        apply Forall_app. split; [done|]. repeat constructor. by exists u.
      * unfold exec. rewrite (on_unsubscribe_raises _ _ _ _ _ E). by exists calls.
  - exists []. by rewrite app_nil_r.
Qed.

(** X12: the roster publishes nothing: a run leaves the messages published
    to the server as they were. *)
Theorem run_publishes_nothing feed w :
  published (exec (run self feed) w) = published w.
Proof.
  apply (run_keeps (fun w' => published w' = published w)); [|done].
  apply handle_event_keeps.
  - intros u data w0 <-.
    destruct (Py.getitem data "session_id") as [sid|e] eqn:E.
    + unfold exec. by rewrite (on_subscribe_returns _ _ _ sid).
    + unfold exec. by rewrite (on_subscribe_raises _ _ _ _ _ E).
  - intros u data w0 <-.
    destruct (Py.getitem data "session_id") as [sid|e] eqn:E.
    + unfold exec. rewrite (on_unsubscribe_returns _ _ _ sid) by done. cbn [snd].
      by destruct (bool_decide _).
    + unfold exec. by rewrite (on_unsubscribe_raises _ _ _ _ _ E).
Qed.

End runs.

(** ** subscribe, and run as a subscriber *)

Section subscribing.
Context `{Runtime}.
Implicit Types (handler : string → value → M unit) (evs : list (string * value)).

Lemma for_each_app handler evs evs' w :
  for_each handler (evs ++ evs') w =
  match for_each handler evs w with
  | (Return _, w1) => for_each handler evs' w1
  | (Raise e, w1) => (Raise e, w1)
  end.
Proof.
  revert w. induction evs as [|[event data] evs IH]; intros w; [done|].
  simpl. unfold bind. destruct (handler event data w) as [[[]|e] w1]; [|done].
  apply IH.
Qed.

Lemma handle_all_for_each (self : RedisRoster) evs w :
  handle_all self evs w = for_each (handle_event self) evs w.
Proof.
  revert w. induction evs as [|[event data] evs IH]; intros w; [done|].
  simpl. unfold bind. destruct (handle_event self event data w) as [[[]|e] w1]; [|done].
  apply IH.
Qed.

(** X13: [run] does what [subscribe] does with [handle_event] for the
    handler, on the client of the roster. *)
Theorem run_is_subscribe (self : RedisRoster) (feed : list message) (w : world) :
  run self feed w = subscribe (jug self) (handle_event self) feed w.
Proof.
  unfold run, subscribe. destruct (subscribe_listen (jug self) feed) as [evs e].
  unfold bind. by rewrite handle_all_for_each.
Qed.

(** X14: [subscribe] calls the handler on the yielded pairs in order.  When
    a call raises, that exception is the outcome, in the world that
    call left: no later pair reaches the handler, and a payload
    further on that does not parse goes unnoticed. *)
Theorem subscribe_until_raise (self : Juggernaut) handler feed pre event data post e x
    (w w1 w2 : world) :
  subscribe_listen self feed = ((pre ++ (event, data) :: post)%list, e) →
  for_each handler pre w = (Return tt, w1) →
  handler event data w1 = (Raise x, w2) →
  subscribe self handler feed w = (Raise x, w2).
Proof.
  intros Hfeed Hpre Hraise. unfold subscribe. rewrite Hfeed. unfold bind.
  rewrite for_each_app, Hpre. simpl. unfold bind. by rewrite Hraise.
Qed.

Lemma after_first_append (c : Ascii.ascii) (prefix rest : string) :
  Py.after_first c prefix = None →
  Py.after_first c (prefix +:+ String c rest) = Some rest.
Proof.
  induction prefix as [|c' prefix IH]; simpl.
  - by rewrite Ascii.eqb_refl.
  - destruct (Ascii.eqb c' c); [discriminate|done].
Qed.

(** X16: a message on the channel [prefix:name], the prefix without a
    colon, is decoded to the event [name], colons in the name and all,
    with the parsed payload; a payload that does not parse raises
    [ValueError]. *)
Theorem decode_channel_event (prefix name text : string) :
  Py.after_first ":" prefix = None →
  decode {| channel := prefix +:+ ":" +:+ name; payload := text |} =
  match json_loads text with
  | Some data => Return (name, data)
  | None => Raise ValueError
  end.
Proof.
  intros Hprefix. unfold decode. cbn [channel payload].
  change (":" +:+ name) with (String ":" name).
  by rewrite (after_first_append _ _ _ Hprefix).
Qed.

End subscribing.

(** ** These theorems at an input *)

Section more_witnesses.
#[local] Existing Instance CPython27.runtime.

(** A subscribe event that names a user and has no session identifier. *)
Lemma subscribe_without_session_id :
  let data := VDict [("meta", VDict [("user_id", VStr "u1")])] in
  (handle_event default_roster "subscribe" data empty_world).1 =
    Raise (KeyError "session_id") ∧
  exec (handle_event default_roster "subscribe" data) empty_world = empty_world.
Proof.
  split; [reflexivity|].
  exact (proj1 (handle_event_raises_before_writing default_roster "subscribe"
                  (VDict [("meta", VDict [("user_id", VStr "u1")])]) empty_world
                  (KeyError "session_id") eq_refl)).
Defined.

(** A custom event whose data is a list. *)
Lemma custom_event_with_a_list :
  "custom" ≠ "subscribe" ∧ "custom" ≠ "unsubscribe" ∧
  exec (handle_event default_roster "custom" (VList [])) empty_world = empty_world ∧
  (handle_event default_roster "custom" (VList []) empty_world).1 = Raise AttributeError.
Proof.
  split_and!; [discriminate|discriminate|..];
    apply (handle_event_other_events default_roster "custom" (VList []) empty_world);
    discriminate.
Defined.

(** The first session of a user. *)
Lemma first_session_is_recorded :
  let data := VDict [("session_id", VStr "s1")] in
  let w' := exec (on_subscribe default_roster (VStr "u1") data) empty_world in
  Py.getitem data "session_id" = Return (VStr "s1") ∧
  connections default_roster (VStr "u1") w' =
    {["s1"]} ∪ connections default_roster (VStr "u1") empty_world ∧
  (is_user_online default_roster (VStr "u1") w').1 = Return true.
Proof.
  split; [reflexivity|].
  pose proof (on_subscribe_records_session default_roster (VStr "u1")
                (VDict [("session_id", VStr "s1")]) (VStr "s1") empty_world eq_refl)
    as (Hc & _ & Hon).
  split; [exact Hc|exact Hon].
Defined.

(** An unsubscribe event for a user without a connection on record. *)
Lemma unsubscribe_of_a_stranger :
  let data := VDict [("session_id", VStr "s1")] in
  let w' := exec (on_unsubscribe default_roster (VStr "u1") data) empty_world in
  Py.getitem data "session_id" = Return (VStr "s1") ∧
  connection_count default_roster (VStr "u1") w' = 0 ∧
  hooks w' = [on_signed_out_call (VStr "u1")].
Proof.
  split; [reflexivity|].
  pose proof (on_unsubscribe_forgets_session default_roster (VStr "u1")
                (VDict [("session_id", VStr "s1")]) (VStr "s1") empty_world eq_refl)
    as (_ & Hn & Hh).
  split; [exact Hn|exact Hh].
Defined.

(** A subscribe event of [u1], seen from [u2]. *)
Lemma u2_is_spared :
  let data :=
    VDict [("meta", VDict [("user_id", VStr "u1")]); ("session_id", VStr "s1")] in
  (get_user_id default_roster data ≠ Return (VStr "u2")) ∧
  (connections default_roster (VStr "u2")
     (exec (handle_event default_roster "subscribe" data) empty_world) =
   connections default_roster (VStr "u2") empty_world).
Proof.
  split; [discriminate|].
  apply (handle_event_spares_other_users default_roster "subscribe" _ (VStr "u2")).
  discriminate.
Defined.

(** A session that comes and goes. *)
Lemma session_comes_and_goes :
  let data := VDict [("session_id", VStr "s1")] in
  Py.getitem data "session_id" = Return (VStr "s1") ∧
  ("s1" ∉ connections default_roster (VStr "u1") empty_world) ∧
  (connections default_roster (VStr "u1")
     (exec (on_unsubscribe default_roster (VStr "u1") data)
        (exec (on_subscribe default_roster (VStr "u1") data) empty_world)) =
   connections default_roster (VStr "u1") empty_world).
Proof.
  split; [reflexivity|]. split; [apply not_elem_of_empty|].
  apply (subscribe_then_unsubscribe default_roster (VStr "u1")
           (VDict [("session_id", VStr "s1")]) (VStr "s1") empty_world eq_refl).
  apply not_elem_of_empty.
Defined.

(** Two tabs of one user, opened and closed in turn. *)
Lemma two_tabs :
  let d1 := VDict [("session_id", VStr "s1")] in
  let d2 := VDict [("session_id", VStr "s2")] in
  let u1 := VStr "u1" in
  let w2 := exec (on_subscribe default_roster u1 d2)
              (exec (on_subscribe default_roster u1 d1) empty_world) in
  let w3 := exec (on_unsubscribe default_roster u1 d1) w2 in
  let w4 := exec (on_unsubscribe default_roster u1 d2) w3 in
  Py.str (VStr "s1") ≠ Py.str (VStr "s2") ∧
  connections default_roster u1 empty_world = ∅ ∧
  hooks w3 = [] ∧
  (is_user_online default_roster u1 w3).1 = Return true ∧
  hooks w4 = [on_signed_out_call u1] ∧
  (is_user_online default_roster u1 w4).1 = Return false.
Proof.
  split; [discriminate|]. split; [reflexivity|].
  apply (two_sessions_one_sign_out default_roster (VStr "u1")
           (VDict [("session_id", VStr "s1")]) (VDict [("session_id", VStr "s2")])
           (VStr "s1") (VStr "s2") empty_world eq_refl eq_refl);
    [discriminate|reflexivity].
Defined.

(** A run that starts with one user connected. *)
Lemma run_with_a_user_connected :
  let w := exec (on_subscribe default_roster (VStr "u1")
                   (VDict [("session_id", VStr "s1")])) empty_world in
  let feed := [{| channel := "juggernaut:subscribe"; payload := "{}" |}] in
  connected_are_online default_roster w ∧
  connected_are_online default_roster (exec (run default_roster feed) w).
Proof.
  assert (connected_are_online default_roster empty_world) as Hempty.
  { intros user_id Hpos. vm_compute in Hpos. lia. }
  pose proof (on_subscribe_keeps_connected default_roster (VStr "u1")
                (VDict [("session_id", VStr "s1")]) empty_world Hempty) as Hw.
  split; [exact Hw|].
  exact (run_keeps_connected_online default_roster _ _ Hw).
Defined.

(** A custom event with a list for its data ends the subscription
    before the subscribe event behind it is handled. *)
Lemma list_payload_ends_the_loop :
  let feed := [{| channel := "juggernaut:custom"; payload := "[]" |};
               {| channel := "juggernaut:subscribe"; payload := "{}" |}] in
  subscribe_listen default_juggernaut feed =
    ([("custom", VList []); ("subscribe", VDict [])], None) ∧
  handle_event default_roster "custom" (VList []) empty_world =
    (Raise AttributeError, empty_world) ∧
  subscribe default_juggernaut (handle_event default_roster) feed empty_world =
    (Raise AttributeError, empty_world).
Proof.
  split; [by vm_compute|]. split; [reflexivity|].
  apply (subscribe_until_raise default_juggernaut (handle_event default_roster) _
           [] "custom" (VList []) [("subscribe", VDict [])] None AttributeError
           empty_world empty_world empty_world); [by vm_compute|reflexivity|reflexivity].
Defined.

(** An event name with a colon of its own. *)
Lemma custom_room_event :
  Py.after_first ":" "juggernaut" = None ∧
  decode {| channel := "juggernaut:custom:room"; payload := "null" |} =
    Return ("custom:room", VNone).
Proof.
  split; [reflexivity|].
  exact (decode_channel_event "juggernaut" "custom:room" "null" eq_refl).
Defined.

(** The unsubscribe event of a user's only session, delivered twice. *)
Lemma last_unsubscribe_twice :
  let data := VDict [("session_id", VStr "s1")] in
  let u1 := VStr "u1" in
  let w := exec (on_subscribe default_roster u1 data) empty_world in
  Py.getitem data "session_id" = Return (VStr "s1") ∧
  hooks (exec (on_unsubscribe default_roster u1 data)
           (exec (on_unsubscribe default_roster u1 data) w)) =
    [on_signed_out_call u1; on_signed_out_call u1].
Proof.
  split; [reflexivity|].
  exact (proj2 (unsubscribe_redelivery default_roster (VStr "u1")
                  (VDict [("session_id", VStr "s1")]) (VStr "s1")
                  (exec (on_subscribe default_roster (VStr "u1")
                           (VDict [("session_id", VStr "s1")])) empty_world)
                  eq_refl)).
Defined.

End more_witnesses.
